(** * app.py: place one outbound call through the Twilio client

    A shallow embedding of the script [src/app.py] and the properties of
    its control and data flow.  The script is a straight line of calls
    into three foreign parties: python-dotenv ([load_dotenv]), the Python
    runtime ([os.getenv], [print]) and the Twilio client library
    ([Client], [client.calls.create]).  The runtime calls are modelled by
    what they do to the process (its environment and its standard output);
    the Twilio library and the provider behind it are a parameter of every
    run: a [World] fixes what the constructor and the call-creation request
    answer, and the theorems quantify over all worlds.

    Taken for granted: the two imports succeed, [load_dotenv] and [print]
    do not raise, the libraries write nothing to standard output, and an
    exception a library raises is an ordinary error (not [SystemExit]). *)

From stdpp Require Import base strings gmap list.

(** ** Python values and exceptions *)

Module Py.

(** The values the script handles: [os.getenv] returns [Optional[str]],
    and so does the [sid] attribute of a Twilio call record. *)
Inductive pyval : Type :=
| PyNone
| PyStr (s : string).

(** [str(v)], as [print] applies it to each positional argument. *)
Definition py_str (v : pyval) : string :=
  match v with
  | PyNone => "None"
  | PyStr s => s
  end.

(** Python truthiness of an [Optional[str]]: [None] and [''] are falsy. *)
Definition truthy (v : pyval) : bool :=
  match v with
  | PyNone => false
  | PyStr s => negb (String.eqb s "")
  end.

(** A raised exception: its class name and its message. *)
Record PyExc : Type := mkExc { exc_type : string; exc_msg : string }.

(** What a call yields: a value, or an exception that propagates. *)
Inductive result (A : Type) : Type :=
| Ok (a : A)
| Raise (e : PyExc).
Arguments Ok {A} a.
Arguments Raise {A} e.

(** Keyword arguments of a call, in the order the call site writes them. *)
Definition kwargs : Type := list (string * pyval).

Fixpoint kw_get (k : string) (kw : kwargs) : option pyval :=
  match kw with
  | [] => None
  | (k', v) :: rest => if String.eqb k k' then Some v else kw_get k rest
  end.

Definition kw_names (kw : kwargs) : list string := map fst kw.

(** The line feed (code 10, least significant bit first) and the text
    [print] ends its output with. *)
Definition LF_char : Ascii.ascii :=
  Ascii.Ascii false true false true false false false false.

Definition LF : string := String LF_char EmptyString.

End Py.
Export Py.

(** ** The Twilio side: data the library hands back *)

Module Twilio.

(** The handle [Client(username, password)] returns.  What it holds is the
    library's business; the fields only let a world tell handles apart. *)
Record Client : Type := mkClient { username : pyval; password : pyval }.

(** The call record [client.calls.create] returns; the script reads
    [call.sid] and nothing else. *)
Record CallInstance : Type := mkCall { sid : pyval }.

End Twilio.
Export Twilio.

(** ** Everything outside the script *)

Record World : Type := mkWorld {
  (** [os.environ] when the process starts *)
  os_environ : gmap string string;
  (** the bindings of the [.env] file [load_dotenv] finds, parsed and
      interpolated, as a dict from name to [Optional[str]] (a name with no
      [=] binds [None]); empty when there is no file *)
  dotenv_values : gmap string (option string);
  (** the answer of [Client(username, password)] *)
  twilio_Client : pyval → pyval → result Client;
  (** the answer of [client.calls.create] to the keyword arguments [kw] *)
  twilio_calls_create : Client → kwargs → result CallInstance
}.

(** ** The process: state, observable events, and the monad of statements *)

Inductive event : Type :=
| EvLoadDotenv
| EvGetenv (key : string) (r : pyval)
| EvClient (user pass : pyval) (r : result Client)
| EvCreate (c : Client) (kw : kwargs) (r : result CallInstance)
| EvPrint (text : string).

Record proc : Type := mkProc {
  environ : gmap string string;
  stdout : string;
  trace : list event
}.

Definition log (e : event) (p : proc) : proc :=
  {| environ := environ p; stdout := stdout p; trace := trace p ++ [e] |}.

(** A statement reads the world, changes the process, and either yields a
    value or raises; a raise keeps the process as it was at that point. *)
Definition M (A : Type) : Type := World → proc → result A * proc.

Definition ret {A} (a : A) : M A := λ _ p, (Ok a, p).

Definition bind {A B} (k : A → M B) (m : M A) : M B :=
  λ w p,
    match m w p with
    | (Ok a, p') => k a w p'
    | (Raise e, p') => (Raise e, p')
    end.

#[global] Instance M_ret : MRet M := @ret.
#[global] Instance M_bind : MBind M := @bind.

(** ** python-dotenv *)

Module Dotenv.

(** Modelled from the spec: [load_dotenv] is python-dotenv's and no file of
    this repository; the spec only names the step, as loading the
    environment.  The model is the library's documented loop over the
    bindings of the file: a name already in [os.environ] is skipped unless
    [override] is set, and a binding to [None] is never exported. *)
Definition set_as_environment_variables (override : bool)
    (values : gmap string (option string)) (env : gmap string string)
    : gmap string string :=
  map_fold
    (λ k v env,
       if bool_decide (is_Some (env !! k)) && negb override then env
       else match v with
            | Some s => <[k := s]> env
            | None => env
            end)
    env values.

Definition load_dotenv (override : bool) : M unit :=
  λ w p,
    (Ok tt,
     log EvLoadDotenv
       {| environ :=
            set_as_environment_variables override (dotenv_values w) (environ p);
          stdout := stdout p;
          trace := trace p |}).

End Dotenv.

(** ** Runtime and library calls the script makes *)

Module Os.

(** [os.getenv(key)]: [os.environ.get(key, None)]. *)
Definition lookup_env (env : gmap string string) (key : string) : pyval :=
  match env !! key with
  | Some s => PyStr s
  | None => PyNone
  end.

Definition getenv (key : string) : M pyval :=
  λ _ p, let v := lookup_env (environ p) key in (Ok v, log (EvGetenv key v) p).

End Os.

Module Builtins.

(** [print] of positional arguments: their [str] joined by one space, then
    a line feed, written to stdout. *)
Definition print_text (args : list pyval) : string :=
  String.concat " " (map py_str args) +:+ LF.

Definition print (args : list pyval) : M unit :=
  λ _ p,
    let text := print_text args in
    (Ok tt,
     log (EvPrint text)
       {| environ := environ p; stdout := stdout p +:+ text; trace := trace p |}).

End Builtins.

Module Rest.

Definition Client (user pass : pyval) : M Twilio.Client :=
  λ w p, let r := twilio_Client w user pass in (r, log (EvClient user pass r) p).

Definition calls_create (c : Twilio.Client) (kw : kwargs) : M CallInstance :=
  λ w p, let r := twilio_calls_create w c kw in (r, log (EvCreate c kw r) p).

End Rest.

(** ** The script *)

Module App.

Definition TWIML : string := "<Response><Say>HOW are you</Say></Response>".

(** [src/app.py], statement by statement.  [load_dotenv()] is called with
    its defaults; the two lookups for the call are argument expressions,
    evaluated after the client exists and before the request is sent. *)
Definition app : M unit :=
  Dotenv.load_dotenv false ;;
  account_sid ← Os.getenv "account_sid" ;
  auth_token ← Os.getenv "auth_token" ;
  client ← Rest.Client account_sid auth_token ;
  to ← Os.getenv "to" ;
  from_ ← Os.getenv "from_" ;
  call ← Rest.calls_create client
           [("to", to); ("from_", from_); ("twiml", PyStr TWIML)] ;
  Builtins.print [PyStr "Call SID:"; sid call].

Definition start (w : World) : proc :=
  {| environ := os_environ w; stdout := ""; trace := [] |}.

(** One run of the interpreter on the script. *)
Definition run (w : World) : result unit * proc := app w (start w).

(** The interpreter exits 0 at the end of the script and 1 on an exception
    nobody caught. *)
Definition exit_status (r : result unit) : Z :=
  match r with
  | Ok _ => 0
  | Raise _ => 1
  end.

End App.
Export App.

(** ** Vocabulary of the properties *)

(** [os.environ] once [load_dotenv()] has returned. *)
Definition effective_environ (w : World) : gmap string string :=
  Dotenv.set_as_environment_variables false (dotenv_values w) (os_environ w).

(** What [os.getenv k] answers during the run. *)
Definition config (w : World) (k : string) : pyval :=
  Os.lookup_env (effective_environ w) k.

Definition config_keys : list string := ["account_sid"; "auth_token"; "to"; "from_"].

(** The keyword arguments the script hands to [client.calls.create]. *)
Definition request_kw (w : World) : kwargs :=
  [("to", config w "to"); ("from_", config w "from_"); ("twiml", PyStr TWIML)].

(** Projections of a trace: the call-creation requests, the constructor
    calls, the texts written by [print], the environment lookups. *)
Definition requests (t : list event) : list kwargs :=
  omap (λ e, match e with EvCreate _ kw _ => Some kw | _ => None end) t.

Definition constructions (t : list event) : list (pyval * pyval) :=
  omap (λ e, match e with EvClient u p _ => Some (u, p) | _ => None end) t.

Definition printed (t : list event) : list string :=
  omap (λ e, match e with EvPrint s => Some s | _ => None end) t.

Definition lookups (t : list event) : list (string * pyval) :=
  omap (λ e, match e with EvGetenv k r => Some (k, r) | _ => None end) t.

(** Number of line feeds in a text: the lines it completes. *)
Fixpoint lines_written (s : string) : nat :=
  match s with
  | EmptyString => 0
  | String a rest => (if Ascii.eqb a LF_char then 1 else 0) + lines_written rest
  end.

(** The four operations the control flow is made of; an environment lookup
    reads what was loaded and is no step of its own. *)
Inductive step : Type :=
| LoadEnvironment
| BuildClient
| SubmitRequest
| PrintResult.

Definition step_of (e : event) : option step :=
  match e with
  | EvLoadDotenv => Some LoadEnvironment
  | EvGetenv _ _ => None
  | EvClient _ _ _ => Some BuildClient
  | EvCreate _ _ _ => Some SubmitRequest
  | EvPrint _ => Some PrintResult
  end.

(** The operations of the script, by name, in source order. *)
Inductive op : Type :=
| OpLoadDotenv
| OpGetenv (key : string)
| OpClient
| OpCreate
| OpPrint.

Definition op_of (e : event) : op :=
  match e with
  | EvLoadDotenv => OpLoadDotenv
  | EvGetenv k _ => OpGetenv k
  | EvClient _ _ _ => OpClient
  | EvCreate _ _ _ => OpCreate
  | EvPrint _ => OpPrint
  end.

Definition source_order : list op :=
  [OpLoadDotenv; OpGetenv "account_sid"; OpGetenv "auth_token"; OpClient;
   OpGetenv "to"; OpGetenv "from_"; OpCreate; OpPrint].

(** The events every run starts with, up to the constructor call. *)
Definition prologue (w : World) : list event :=
  [EvLoadDotenv;
   EvGetenv "account_sid" (config w "account_sid");
   EvGetenv "auth_token" (config w "auth_token");
   EvClient (config w "account_sid") (config w "auth_token")
     (twilio_Client w (config w "account_sid") (config w "auth_token"))].

(** The events from the constructor's return to the request's answer. *)
Definition submission (w : World) (c : Client) : list event :=
  [EvGetenv "to" (config w "to");
   EvGetenv "from_" (config w "from_");
   EvCreate c (request_kw w) (twilio_calls_create w c (request_kw w))].

Definition success_line (call : CallInstance) : string :=
  "Call SID: " +:+ py_str (sid call) +:+ LF.

(** The three ways a run can end, with the process each leaves behind. *)
Inductive ending (w : World) : result unit → proc → Prop :=
| ClientRaises e :
    twilio_Client w (config w "account_sid") (config w "auth_token") = Raise e →
    ending w (Raise e)
      {| environ := effective_environ w; stdout := ""; trace := prologue w |}
| CreateRaises c e :
    twilio_Client w (config w "account_sid") (config w "auth_token") = Ok c →
    twilio_calls_create w c (request_kw w) = Raise e →
    ending w (Raise e)
      {| environ := effective_environ w; stdout := "";
         trace := prologue w ++ submission w c |}
| Completes c call :
    twilio_Client w (config w "account_sid") (config w "auth_token") = Ok c →
    twilio_calls_create w c (request_kw w) = Ok call →
    ending w (Ok tt)
      {| environ := effective_environ w; stdout := success_line call;
         trace := prologue w ++ submission w c ++ [EvPrint (success_line call)] |}.

(** A value is missing or empty when Python reads it as false. *)
Definition missing_or_empty (w : World) (k : string) : Prop :=
  truthy (config w k) = false.

(** A client library and provider that refuse missing or empty values: the
    constructor without both credentials, the request without both
    numbers. *)
Definition rejects_missing (w : World) : Prop :=
  (∀ u p, truthy u && truthy p = false → ∃ e, twilio_Client w u p = Raise e) ∧
  (∀ c kw,
     (∀ v, kw_get "to" kw = Some v → truthy v = false) ∨
     (∀ v, kw_get "from_" kw = Some v → truthy v = false) →
     ∃ e, twilio_calls_create w c kw = Raise e).

(** What the spec says of missing configuration, for one world: a missing
    or empty variable makes the run fail with nothing printed. *)
Definition missing_config_fails (w : World) : Prop :=
  (∃ k, k ∈ config_keys ∧ missing_or_empty w k) →
  (∃ e, (run w).1 = Raise e) ∧
  printed (trace (run w).2) = [] ∧
  stdout (run w).2 = "".

(** What the spec says of effects, for one run: one request and one
    printed line. *)
Definition one_request_one_line (w : World) : Prop :=
  length (requests (trace (run w).2)) = 1 ∧
  length (printed (trace (run w).2)) = 1.

(** A library call that ended in an exception. *)
Definition raised (e : event) : bool :=
  match e with
  | EvClient _ _ (Raise _) => true
  | EvCreate _ _ (Raise _) => true
  | _ => false
  end.

(** What a reader of standard output takes for the identifier: the text
    between the ten characters of the label and the final line feed. *)
Definition reported_sid (out : string) : string :=
  String.substring 10 (String.length out - 11) out.

(** ** Sample worlds *)

Module Worlds.

Definition credentials_required : PyExc :=
  mkExc "TwilioException" "Credentials are required to create a TwilioClient".

Definition bad_request : PyExc :=
  mkExc "TwilioRestException" "HTTP 400 error: Unable to create record".

(** A library that builds a client only from two non-empty credentials and
    a provider that places a call only between two non-empty numbers. *)
Definition strict_Client (u p : pyval) : result Client :=
  if truthy u && truthy p then Ok (mkClient u p) else Raise credentials_required.

Definition strict_create (c : Client) (kw : kwargs) : result CallInstance :=
  match kw_get "to" kw, kw_get "from_" kw with
  | Some t, Some f =>
      if truthy t && truthy f
      then Ok (mkCall (PyStr "CA5ef8732a3c49700934481addd5ce1659"))
      else Raise bad_request
  | _, _ => Raise bad_request
  end.

(** A test double that accepts whatever it is given. *)
Definition mock_Client (u p : pyval) : result Client := Ok (mkClient u p).

Definition mock_create (c : Client) (kw : kwargs) : result CallInstance :=
  Ok (mkCall (PyStr "CAmock")).

(** A provider that turns every request down. *)
Definition failing_create (c : Client) (kw : kwargs) : result CallInstance :=
  Raise bad_request.

Definition full_env : gmap string string :=
  list_to_map
    [("account_sid", "AC00000000000000000000000000000000");
     ("auth_token", "s3cret");
     ("to", "+15558675310");
     ("from_", "+15017122661")].

(** All four variables set, no [.env] file, a cooperative provider. *)
Definition configured : World :=
  mkWorld full_env ∅ strict_Client strict_create.

(** The same configuration, split between the process environment and a
    [.env] file that also rebinds [to], with an unrelated variable on top. *)
Definition configured_by_file : World :=
  mkWorld
    (list_to_map [("to", "+15558675310"); ("LANG", "C.UTF-8")])
    (list_to_map
       [("account_sid", Some "AC00000000000000000000000000000000");
        ("auth_token", Some "s3cret");
        ("to", Some "+19995550000");
        ("from_", Some "+15017122661");
        ("DEBUG", None)])
    strict_Client strict_create.

(** Nothing configured at all. *)
Definition unconfigured : World :=
  mkWorld ∅ ∅ strict_Client strict_create.

(** All four variables set, the provider refuses the call. *)
Definition refused : World :=
  mkWorld full_env ∅ strict_Client failing_create.

(** [to] is not set and the client is a test double. *)
Definition mocked_without_to : World :=
  mkWorld (delete "to" full_env) ∅ mock_Client mock_create.

End Worlds.

(** ** The monad of statements *)

Section Statements.

Context {A B C : Type}.

Lemma bind_ret (a : A) (k : A → M B) w p : (mret a ≫= k) w p = k a w p.
Proof. reflexivity. Qed.

Lemma ret_bind (m : M A) w p : (m ≫= mret) w p = m w p.
Proof.
  unfold mbind, M_bind, bind, mret, M_ret, ret.
  by destruct (m w p) as [[a|e] p'].
Qed.

Lemma bind_bind (m : M A) (k : A → M B) (h : B → M C) w p :
  ((m ≫= k) ≫= h) w p = (m ≫= (λ a, k a ≫= h)) w p.
Proof.
  unfold mbind, M_bind, bind.
  by destruct (m w p) as [[a|e] p'].
Qed.

(** An exception skips the rest of the script and leaves the process as
    the raising statement left it. *)
Lemma bind_raise (m : M A) (k : A → M B) w p e p' :
  m w p = (Raise e, p') → (m ≫= k) w p = (Raise e, p').
Proof. intros Hm. unfold mbind, M_bind, bind. by rewrite Hm. Qed.

End Statements.

(** ** How a run unfolds *)

Lemma run_ending (w : World) : ending w (run w).1 (run w).2.
Proof.
  unfold run, app, start, mbind, M_bind, bind.
  unfold Dotenv.load_dotenv, Os.getenv, Rest.Client, Rest.calls_create,
    Builtins.print, log; cbn [environ stdout trace].
  fold (effective_environ w).
  fold (config w "account_sid") (config w "auth_token").
  destruct (twilio_Client w (config w "account_sid") (config w "auth_token"))
    as [c|e] eqn:Hclient; cbn [environ stdout trace fst snd].
  - fold (config w "to") (config w "from_"). fold (request_kw w).
    destruct (twilio_calls_create w c (request_kw w)) as [call|e] eqn:Hcreate;
      cbn [environ stdout trace fst snd].
    + pose proof (Completes w c call Hclient Hcreate) as H.
      unfold prologue, submission in H. rewrite Hclient, Hcreate in H.
      exact H.
    + pose proof (CreateRaises w c e Hclient Hcreate) as H.
      unfold prologue, submission in H. rewrite Hclient, Hcreate in H.
      exact H.
  - pose proof (ClientRaises w e Hclient) as H.
    unfold prologue in H. rewrite Hclient in H. exact H.
Qed.

(** The case analysis every property of a run starts with. *)
Ltac run_cases w :=
  let Hclient := fresh "Hclient" in
  let Hcreate := fresh "Hcreate" in
  let cl := fresh "cl" in
  let ex := fresh "ex" in
  let answer := fresh "answer" in
  destruct (run_ending w)
    as [ex Hclient | cl ex Hclient Hcreate | cl answer Hclient Hcreate];
  cbn [environ stdout trace] in *.

(** ** Projections of the pieces of a trace *)

Section Projections.

Context (w : World).

Lemma requests_prologue : requests (prologue w) = [].
Proof. reflexivity. Qed.

Lemma printed_prologue : printed (prologue w) = [].
Proof. reflexivity. Qed.

Lemma requests_submission c : requests (submission w c) = [request_kw w].
Proof. reflexivity. Qed.

Lemma printed_submission c : printed (submission w c) = [].
Proof. reflexivity. Qed.

Lemma create_in_prologue c kw r : EvCreate c kw r ∉ prologue w.
Proof.
  unfold prologue. rewrite !not_elem_of_cons.
  repeat split; try done. apply not_elem_of_nil.
Qed.

Lemma create_in_submission c0 c kw r :
  EvCreate c kw r ∈ submission w c0 →
  c = c0 ∧ kw = request_kw w ∧ r = twilio_calls_create w c0 (request_kw w).
Proof.
  unfold submission. rewrite !elem_of_cons, elem_of_nil.
  intros [?|[?|[Heq|[]]]]; try discriminate. by injection Heq as -> -> ->.
Qed.

End Projections.

Lemma requests_app t1 t2 : requests (t1 ++ t2) = requests t1 ++ requests t2.
Proof. apply omap_app. Qed.

Lemma printed_app t1 t2 : printed (t1 ++ t2) = printed t1 ++ printed t2.
Proof. apply omap_app. Qed.

Create Rewrite HintDb trace.

#[global] Hint Rewrite requests_app printed_app requests_prologue
  printed_prologue requests_submission printed_submission : trace.

(** A trace that has printed nothing holds no [print] event. *)
Lemma printed_nil_not_in (l : list event) (text : string) :
  printed l = [] → EvPrint text ∉ l.
Proof.
  induction l as [|a l IH]; intros Hnil Hin.
  - by apply elem_of_nil in Hin.
  - apply elem_of_cons in Hin as [<-|Hin]; [discriminate|].
    destruct a; try discriminate; by apply IH.
Qed.

(** When only the last event of a trace can be a [print], a [print] splits
    the trace right before its end. *)
Lemma split_at_final_print (l : list event) (x : event)
    (before after : list event) (text : string) :
  printed l = [] →
  l ++ [x] = before ++ EvPrint text :: after →
  before = l ∧ after = [] ∧ x = EvPrint text.
Proof.
  revert before. induction l as [|a l IH]; intros before Hnil Heq.
  - destruct before as [|b before]; cbn in Heq.
    + injection Heq as -> <-. done.
    + injection Heq as _ Heq. by destruct before.
  - destruct before as [|b before]; cbn in Heq.
    + injection Heq as -> _. discriminate.
    + injection Heq as <- Heq.
      destruct (IH before) as (-> & -> & ->); [|done|done].
      destruct a; try discriminate; done.
Qed.

Lemma lines_written_app s1 s2 :
  lines_written (s1 +:+ s2) = lines_written s1 + lines_written s2.
Proof. induction s1 as [|a s1 IH]; simpl; [done|]. rewrite IH. lia. Qed.

Lemma lines_written_success_line call :
  lines_written (success_line call) = 1 + lines_written (py_str (sid call)).
Proof.
  unfold success_line. rewrite !lines_written_app.
  change (lines_written "Call SID: ") with 0.
  change (lines_written LF) with 1. lia.
Qed.

(** ** python-dotenv: what the merge leaves in the environment *)

Lemma set_as_environment_variables_lookup
    (values : gmap string (option string)) (env : gmap string string) (k : string) :
  Dotenv.set_as_environment_variables false values env !! k =
    match env !! k with
    | Some s => Some s
    | None => mjoin (values !! k)
    end.
Proof.
  unfold Dotenv.set_as_environment_variables.
  revert k.
  apply (map_fold_weak_ind
           (λ (r : gmap string string) (m : gmap string (option string)),
              ∀ k, r !! k = match env !! k with
                            | Some s => Some s
                            | None => mjoin (m !! k)
                            end)).
  - intros k. rewrite lookup_empty. by destruct (env !! k).
  - intros i x m r Hfresh IH k.
    rewrite andb_true_r.
    destruct (decide (i = k)) as [->|Hne].
    + rewrite lookup_insert_eq.
      specialize (IH k). rewrite Hfresh in IH. cbn in IH.
      case_bool_decide as Hset.
      * rewrite IH in Hset |- *. destruct (env !! k); [done|].
        by destruct Hset.
      * rewrite IH in Hset.
        destruct (env !! k) as [s|] eqn:Hk.
        { exfalso. apply Hset. eauto. }
        destruct x as [s|]; cbn.
        -- by rewrite lookup_insert_eq.
        -- by rewrite IH.
    + rewrite lookup_insert_ne by done.
      rewrite <- IH.
      case_bool_decide; [done|].
      destruct x; [by rewrite lookup_insert_ne|done].
Qed.

(** With [override] set the file wins instead: the script's call leaves
    this path unused. *)
Lemma set_as_environment_variables_override
    (values : gmap string (option string)) (env : gmap string string) (k : string) :
  Dotenv.set_as_environment_variables true values env !! k =
    match values !! k with
    | Some (Some s) => Some s
    | _ => env !! k
    end.
Proof.
  unfold Dotenv.set_as_environment_variables.
  revert k.
  apply (map_fold_weak_ind
           (λ (r : gmap string string) (m : gmap string (option string)),
              ∀ k, r !! k = match m !! k with
                            | Some (Some s) => Some s
                            | _ => env !! k
                            end)).
  - intros k. by rewrite lookup_empty.
  - intros i x m r Hfresh IH k.
    rewrite andb_false_r.
    destruct (decide (i = k)) as [->|Hne].
    + rewrite lookup_insert_eq. destruct x as [s|].
      * by rewrite lookup_insert_eq.
      * by rewrite IH, Hfresh.
    + rewrite lookup_insert_ne by done. rewrite <- IH.
      destruct x; [by rewrite lookup_insert_ne|done].
Qed.

Lemma strict_rejects_missing env file :
  rejects_missing (mkWorld env file Worlds.strict_Client Worlds.strict_create).
Proof.
  split; cbn.
  - intros u p Hfalsy. unfold Worlds.strict_Client. rewrite Hfalsy. eauto.
  - intros c kw Hfalsy. unfold Worlds.strict_create.
    destruct (kw_get "to" kw) as [t|]; [|eauto].
    destruct (kw_get "from_" kw) as [f|]; [|eauto].
    assert (truthy t && truthy f = false) as ->; [|eauto].
    destruct Hfalsy as [Hto|Hfrom].
    + by rewrite (Hto t eq_refl).
    + rewrite (Hfrom f eq_refl). apply andb_false_r.
Qed.

(** ** The properties *)

(** The request of a fully configured run, as the provider receives it. *)
Example configured_request :
  requests (trace (run Worlds.configured).2)
  = [[("to", PyStr "+15558675310"); ("from_", PyStr "+15017122661");
      ("twiml", PyStr "<Response><Say>HOW are you</Say></Response>")]].
Proof. by vm_compute. Qed.

(** C1: whatever the environment, the [.env] file and the answers of the
    library are, every call-creation request of a run carries, as its
    [twiml] argument, exactly the string
    [<Response><Say>HOW are you</Say></Response>]. *)
Theorem twiml_is_fixed (w : World) :
  Forall
    (λ kw, kw_get "twiml" kw
           = Some (PyStr "<Response><Say>HOW are you</Say></Response>"))
    (requests (trace (run w).2)).
Proof.
  run_cases w; autorewrite with trace; cbn; repeat constructor.
Qed.

(** C2: when the call-creation request returns a call record, the program
    ends normally with exit status 0, and its standard output is the one
    text [Call SID: ] followed by [str(call.sid)] and a line feed, written
    by a single [print]; that text completes one line more than the
    identifier itself contains. *)
Theorem success_prints_call_sid (w : World) (c : Client) (kw : kwargs)
    (call : CallInstance) :
  EvCreate c kw (Ok call) ∈ trace (run w).2 →
  (run w).1 = Ok tt ∧
  exit_status (run w).1 = 0%Z ∧
  stdout (run w).2 = "Call SID: " +:+ py_str (sid call) +:+ LF ∧
  printed (trace (run w).2) = ["Call SID: " +:+ py_str (sid call) +:+ LF] ∧
  lines_written (stdout (run w).2) = 1 + lines_written (py_str (sid call)).
Proof.
  run_cases w; intros Hin.
  - by apply create_in_prologue in Hin.
  - apply elem_of_app in Hin as [Hin|Hin].
    + by apply create_in_prologue in Hin.
    + apply create_in_submission in Hin as (_ & _ & Hr). congruence.
  - rewrite app_assoc in Hin.
    apply elem_of_app in Hin as [Hin|Hin].
    + apply elem_of_app in Hin as [Hin|Hin].
      * by apply create_in_prologue in Hin.
      * apply create_in_submission in Hin as (_ & _ & Hr).
        assert (answer = call) as -> by congruence.
        autorewrite with trace.
        repeat split; try done. apply lines_written_success_line.
    + apply list_elem_of_singleton in Hin. discriminate.
Qed.

Lemma success_prints_call_sid_witness :
  EvCreate
    (mkClient (PyStr "AC00000000000000000000000000000000") (PyStr "s3cret"))
    (request_kw Worlds.configured)
    (Ok (mkCall (PyStr "CA5ef8732a3c49700934481addd5ce1659")))
    ∈ trace (run Worlds.configured).2 ∧
  exit_status (run Worlds.configured).1 = 0%Z ∧
  stdout (run Worlds.configured).2
  = "Call SID: CA5ef8732a3c49700934481addd5ce1659" +:+ LF.
Proof.
  assert (EvCreate
            (mkClient (PyStr "AC00000000000000000000000000000000") (PyStr "s3cret"))
            (request_kw Worlds.configured)
            (Ok (mkCall (PyStr "CA5ef8732a3c49700934481addd5ce1659")))
            ∈ trace (run Worlds.configured).2) as Hin.
  { vm_compute. do 6 apply list_elem_of_further. apply list_elem_of_here. }
  split; [exact Hin|].
  pose proof (success_prints_call_sid _ _ _ _ Hin) as (_ & Hexit & Hout & _).
  split; [exact Hexit | exact Hout].
Defined.

(** C3: the client is constructed, once, from the lookups of [account_sid]
    and [auth_token]; every call-creation request has the lookup of [to] as
    its destination and the lookup of [from_] as its origin, and such a
    request is sent whenever the constructor returns.  A lookup is the
    variable's string as it stands, and [None] when the variable is not
    set: nothing is checked and nothing is substituted. *)
Theorem configuration_is_passed_through (w : World) :
  constructions (trace (run w).2)
  = [(config w "account_sid", config w "auth_token")] ∧
  Forall
    (λ kw, kw_get "to" kw = Some (config w "to") ∧
           kw_get "from_" kw = Some (config w "from_"))
    (requests (trace (run w).2)) ∧
  (∀ c, twilio_Client w (config w "account_sid") (config w "auth_token") = Ok c →
        requests (trace (run w).2) = [request_kw w]) ∧
  (∀ k, config w k = match effective_environ w !! k with
                     | Some s => PyStr s
                     | None => PyNone
                     end).
Proof.
  split; [|split; [|split]].
  - by run_cases w.
  - run_cases w; autorewrite with trace; cbn; repeat constructor.
  - intros c Hc. run_cases w; [congruence|done|done].
  - done.
Qed.

(** C4: when the call-creation request raises, that same exception ends the
    program: the exit status is not 0, no [print] has run and standard
    output is still empty, as it was at the start. *)
Theorem create_error_propagates (w : World) (c : Client) (kw : kwargs)
    (e : PyExc) :
  EvCreate c kw (Raise e) ∈ trace (run w).2 →
  (run w).1 = Raise e ∧
  exit_status (run w).1 ≠ 0%Z ∧
  printed (trace (run w).2) = [] ∧
  stdout (run w).2 = stdout (start w) ∧
  stdout (run w).2 = "".
Proof.
  run_cases w; intros Hin.
  - by apply create_in_prologue in Hin.
  - apply elem_of_app in Hin as [Hin|Hin].
    + by apply create_in_prologue in Hin.
    + apply create_in_submission in Hin as (_ & _ & Hr).
      assert (ex = e) as -> by congruence.
      autorewrite with trace. by repeat split.
  - rewrite app_assoc in Hin.
    apply elem_of_app in Hin as [Hin|Hin].
    + apply elem_of_app in Hin as [Hin|Hin].
      * by apply create_in_prologue in Hin.
      * apply create_in_submission in Hin as (_ & _ & Hr). congruence.
    + apply list_elem_of_singleton in Hin. discriminate.
Qed.

Lemma create_error_propagates_witness :
  EvCreate
    (mkClient (PyStr "AC00000000000000000000000000000000") (PyStr "s3cret"))
    (request_kw Worlds.refused)
    (Raise Worlds.bad_request)
    ∈ trace (run Worlds.refused).2 ∧
  (run Worlds.refused).1 = Raise Worlds.bad_request ∧
  stdout (run Worlds.refused).2 = "".
Proof.
  assert (EvCreate
            (mkClient (PyStr "AC00000000000000000000000000000000") (PyStr "s3cret"))
            (request_kw Worlds.refused)
            (Raise Worlds.bad_request)
            ∈ trace (run Worlds.refused).2) as Hin.
  { vm_compute. do 6 apply list_elem_of_further. apply list_elem_of_here. }
  split; [exact Hin|].
  pose proof (create_error_propagates _ _ _ _ Hin) as (Hres & _ & _ & _ & Hout).
  split; [exact Hres | exact Hout].
Defined.

(** C5, as the spec states it, fails: with [to] unset and a client that
    accepts what it is given, the script prints its success line and ends
    normally, since it never looks at the values itself. *)
Lemma missing_to_still_prints :
  ("to" ∈ config_keys ∧ missing_or_empty Worlds.mocked_without_to "to") ∧
  (run Worlds.mocked_without_to).1 = Ok tt ∧
  stdout (run Worlds.mocked_without_to).2 = "Call SID: CAmock" +:+ LF ∧
  ¬ missing_config_fails Worlds.mocked_without_to.
Proof.
  assert ("to" ∈ config_keys ∧ missing_or_empty Worlds.mocked_without_to "to")
    as Hmissing.
  { split; [|by vm_compute].
    unfold config_keys. do 2 apply list_elem_of_further. apply list_elem_of_here. }
  split; [exact Hmissing|].
  split; [by vm_compute|]. split; [by vm_compute|].
  intros Hclaim. destruct Hclaim as ([e He] & _); [by exists "to"|].
  vm_compute in He. discriminate.
Qed.

(** C5, amended: when the client library refuses missing or empty
    credentials and the provider refuses a missing or empty number, every
    run in which one of the four variables is missing or empty fails at the
    constructor or at the request, and prints nothing. *)
Theorem missing_config_fails_when_library_rejects (w : World) :
  rejects_missing w → missing_config_fails w.
Proof.
  intros [Hctor Hreq] (k & Hk & Hfalsy). unfold missing_or_empty in Hfalsy.
  assert (truthy (config w "account_sid") && truthy (config w "auth_token") = false
          ∨ truthy (config w "to") = false
          ∨ truthy (config w "from_") = false) as Hwhich.
  { unfold config_keys in Hk. rewrite !elem_of_cons, elem_of_nil in Hk.
    destruct Hk as [->|[->|[->|[->|[]]]]].
    - left. by rewrite Hfalsy.
    - left. rewrite Hfalsy. apply andb_false_r.
    - right. by left.
    - right. by right. }
  run_cases w.
  - split; [eauto|done].
  - autorewrite with trace. split; [eauto|done].
  - exfalso. destruct Hwhich as [Hcreds|Hnumber].
    + destruct (Hctor _ _ Hcreds) as [e He]. congruence.
    + destruct (Hreq cl (request_kw w)) as [e He]; [|congruence].
      destruct Hnumber as [Hto|Hfrom].
      * left. intros v Hv. cbn in Hv. congruence.
      * right. intros v Hv. cbn in Hv. congruence.
Qed.

Lemma missing_config_fails_when_library_rejects_witness :
  rejects_missing Worlds.unconfigured ∧
  ("account_sid" ∈ config_keys ∧ missing_or_empty Worlds.unconfigured "account_sid") ∧
  (∃ e, (run Worlds.unconfigured).1 = Raise e) ∧
  printed (trace (run Worlds.unconfigured).2) = [] ∧
  stdout (run Worlds.unconfigured).2 = "".
Proof.
  assert ("account_sid" ∈ config_keys
          ∧ missing_or_empty Worlds.unconfigured "account_sid") as Hmissing.
  { split; [apply list_elem_of_here | by vm_compute]. }
  split; [apply strict_rejects_missing|].
  split; [exact Hmissing|].
  apply (missing_config_fails_when_library_rejects Worlds.unconfigured).
  - apply strict_rejects_missing.
  - by exists "account_sid".
Defined.

(** C6: the operations of a run are an initial part of: load the
    environment, construct the client, submit the request, print.  In
    detail they follow the source text, the lookups of [to] and [from_]
    coming between the construction and the request.  Whatever is printed
    is printed right after a call-creation request that returned a record,
    and nothing was printed before. *)
Theorem operations_in_fixed_order (w : World) :
  omap step_of (trace (run w).2)
    `prefix_of` [LoadEnvironment; BuildClient; SubmitRequest; PrintResult] ∧
  map op_of (trace (run w).2) `prefix_of` source_order ∧
  (∀ before text after,
     trace (run w).2 = before ++ EvPrint text :: after →
     printed before = [] ∧ after = [] ∧
     ∃ c kw call, last before = Some (EvCreate c kw (Ok call))).
Proof.
  run_cases w.
  - split; [|split].
    + by exists [SubmitRequest; PrintResult].
    + by exists [OpGetenv "to"; OpGetenv "from_"; OpCreate; OpPrint].
    + intros before text after Heq. exfalso.
      apply (printed_nil_not_in (prologue w) text); [done|].
      rewrite Heq. apply elem_of_app. right. apply list_elem_of_here.
  - split; [|split].
    + by exists [PrintResult].
    + by exists [OpPrint].
    + intros before text after Heq. exfalso.
      apply (printed_nil_not_in (prologue w ++ submission w cl) text).
      * by rewrite printed_app.
      * rewrite Heq. apply elem_of_app. right. apply list_elem_of_here.
  - split; [|split].
    + by exists [].
    + by exists [].
    + intros before text after Heq. rewrite app_assoc in Heq.
      apply split_at_final_print in Heq as (-> & -> & _);
        [|by rewrite printed_app].
      split; [by rewrite printed_app|]. split; [done|].
      exists cl, (request_kw w), answer.
      unfold prologue, submission. cbn. by rewrite Hcreate.
Qed.

(** C7, as the spec states it, fails: a run with nothing configured, against
    a library that refuses to build a client without credentials, sends no
    request and prints no line; a run whose request the provider refuses
    sends one request and prints no line. *)
Lemma unconfigured_run_has_no_effects :
  requests (trace (run Worlds.unconfigured).2) = [] ∧
  printed (trace (run Worlds.unconfigured).2) = [] ∧
  ¬ one_request_one_line Worlds.unconfigured ∧
  length (requests (trace (run Worlds.refused).2)) = 1 ∧
  printed (trace (run Worlds.refused).2) = [] ∧
  ¬ one_request_one_line Worlds.refused.
Proof.
  split; [by vm_compute|]. split; [by vm_compute|].
  split; [intros [Hreq _]; vm_compute in Hreq; discriminate|].
  split; [by vm_compute|]. split; [by vm_compute|].
  intros [_ Hprint]. vm_compute in Hprint. discriminate.
Qed.

(** C7, amended: a run sends at most one call-creation request and prints
    at most one line; a run that ends normally sends exactly one request
    and prints exactly one line, its events being the eight of the source
    and no other, and a run that fails prints nothing; standard output
    holds what [print] wrote and nothing else.  A request has the three
    keyword arguments [to], [from_], [twiml] and no other, and two normal
    runs with the same configuration send two requests with equal
    arguments. *)
Theorem effects_of_a_run (w1 w2 : World) :
  os_environ w1 = os_environ w2 →
  dotenv_values w1 = dotenv_values w2 →
  (length (requests (trace (run w1).2)) ≤ 1 ∧
   length (printed (trace (run w1).2)) ≤ 1) ∧
  ((run w1).1 = Ok tt →
   one_request_one_line w1 ∧
   ∃ c call,
     trace (run w1).2
     = prologue w1 ++ submission w1 c ++ [EvPrint (success_line call)]) ∧
  (∀ e, (run w1).1 = Raise e → printed (trace (run w1).2) = []) ∧
  stdout (run w1).2 = String.concat "" (printed (trace (run w1).2)) ∧
  Forall (λ kw, kw_names kw = ["to"; "from_"; "twiml"])
    (requests (trace (run w1).2)) ∧
  ((run w1).1 = Ok tt → (run w2).1 = Ok tt →
   requests (trace (run w1).2 ++ trace (run w2).2)
   = [request_kw w1; request_kw w1]).
Proof.
  intros Henv Hfile.
  assert (request_kw w2 = request_kw w1) as Hsame.
  { unfold request_kw, config, effective_environ. by rewrite Henv, Hfile. }
  rewrite requests_app. unfold one_request_one_line.
  run_cases w1; autorewrite with trace; cbn.
  - repeat split; try done; try lia.
  - repeat split; try done; try lia. repeat constructor.
  - repeat split; try done; try lia.
    + by exists cl, answer.
    + repeat constructor.
    + intros _. run_cases w2; try done.
      autorewrite with trace; cbn. by rewrite Hsame.
Qed.

Lemma effects_of_a_run_witness :
  one_request_one_line Worlds.configured ∧
  requests (trace (run Worlds.configured).2 ++ trace (run Worlds.configured).2)
  = [request_kw Worlds.configured; request_kw Worlds.configured].
Proof.
  pose proof (effects_of_a_run Worlds.configured Worlds.configured
                eq_refl eq_refl) as (_ & Hone & _ & _ & _ & Htwo).
  assert ((run Worlds.configured).1 = Ok tt) as Hok by (by vm_compute).
  split; [exact (proj1 (Hone Hok)) | exact (Htwo Hok Hok)].
Defined.

(** C8: two runs in which the four lookups give the same values, the
    constructor gives the same answer and the provider gives the same
    answer to the request go through the same events, and so send the same
    request, write the same standard output and end the same way. *)
Theorem runs_are_deterministic (w1 w2 : World) :
  (∀ k, k ∈ config_keys → config w1 k = config w2 k) →
  twilio_Client w1 (config w1 "account_sid") (config w1 "auth_token")
  = twilio_Client w2 (config w1 "account_sid") (config w1 "auth_token") →
  (∀ c, twilio_calls_create w1 c (request_kw w1)
        = twilio_calls_create w2 c (request_kw w1)) →
  trace (run w1).2 = trace (run w2).2 ∧
  requests (trace (run w1).2) = requests (trace (run w2).2) ∧
  stdout (run w1).2 = stdout (run w2).2 ∧
  (run w1).1 = (run w2).1.
Proof.
  intros Hconfig Hctor Hreq.
  assert (config w1 "account_sid" = config w2 "account_sid") as Hsid.
  { apply Hconfig. apply list_elem_of_here. }
  assert (config w1 "auth_token" = config w2 "auth_token") as Htok.
  { apply Hconfig. apply list_elem_of_further, list_elem_of_here. }
  assert (config w1 "to" = config w2 "to") as Hto.
  { apply Hconfig. do 2 apply list_elem_of_further. apply list_elem_of_here. }
  assert (config w1 "from_" = config w2 "from_") as Hfrom.
  { apply Hconfig. do 3 apply list_elem_of_further. apply list_elem_of_here. }
  assert (request_kw w1 = request_kw w2) as Hkw.
  { unfold request_kw. by rewrite Hto, Hfrom. }
  assert (prologue w1 = prologue w2) as Hpro.
  { unfold prologue. by rewrite <- Hsid, <- Htok, Hctor. }
  assert (∀ c, submission w1 c = submission w2 c) as Hsub.
  { intros c. unfold submission. by rewrite <- Hkw, <- Hto, <- Hfrom, Hreq. }
  assert (trace (run w1).2 = trace (run w2).2 ∧
          stdout (run w1).2 = stdout (run w2).2 ∧
          (run w1).1 = (run w2).1) as (Htrace & Hout & Hres).
  { destruct (run_ending w1) as [e1 Hc1 | c1 e1 Hc1 Hr1 | c1 a1 Hc1 Hr1];
      destruct (run_ending w2) as [e2 Hc2 | c2 e2 Hc2 Hr2 | c2 a2 Hc2 Hr2];
      cbn [environ stdout trace];
      rewrite <- Hsid, <- Htok, <- Hctor in Hc2;
      rewrite Hc1 in Hc2; try discriminate;
      injection Hc2 as <-;
      rewrite <- ?Hkw, <- ?Hreq in *;
      rewrite <- ?Hpro, <- ?Hsub.
    - done.
    - rewrite Hr1 in Hr2. by injection Hr2 as <-.
    - rewrite Hr1 in Hr2. discriminate.
    - rewrite Hr1 in Hr2. discriminate.
    - rewrite Hr1 in Hr2. by injection Hr2 as <-. }
  by rewrite Htrace.
Qed.

Lemma runs_are_deterministic_witness :
  os_environ Worlds.configured ≠ os_environ Worlds.configured_by_file ∧
  trace (run Worlds.configured).2 = trace (run Worlds.configured_by_file).2 ∧
  stdout (run Worlds.configured).2 = stdout (run Worlds.configured_by_file).2.
Proof.
  split.
  { intros Heq.
    assert (os_environ Worlds.configured !! "LANG"
            = os_environ Worlds.configured_by_file !! "LANG") as Hlang
      by (by rewrite Heq).
    vm_compute in Hlang. discriminate. }
  destruct (runs_are_deterministic Worlds.configured Worlds.configured_by_file)
    as (Htrace & _ & Hout & _).
  - intros k Hk. unfold config_keys in Hk.
    rewrite !elem_of_cons, elem_of_nil in Hk.
    destruct Hk as [->|[->|[->|[->|[]]]]]; by vm_compute.
  - reflexivity.
  - reflexivity.
  - split; [exact Htrace | exact Hout].
Defined.

(** C9: the script checks nothing.  A variable that is not set is looked up
    as [None]; the constructor is called exactly once, with the lookups of
    [account_sid] and [auth_token] whatever they are; whenever it returns,
    the request is sent with the lookups of [to] and [from_] whatever they
    are; and an exception that ends the run is one the constructor or the
    request raised. *)
Theorem script_checks_nothing (w : World) :
  (∀ k, effective_environ w !! k = None → config w k = PyNone) ∧
  constructions (trace (run w).2)
  = [(config w "account_sid", config w "auth_token")] ∧
  (∀ c, twilio_Client w (config w "account_sid") (config w "auth_token") = Ok c →
        requests (trace (run w).2) = [request_kw w]) ∧
  (∀ e, (run w).1 = Raise e →
        twilio_Client w (config w "account_sid") (config w "auth_token") = Raise e ∨
        ∃ c, twilio_Client w (config w "account_sid") (config w "auth_token") = Ok c ∧
             twilio_calls_create w c (request_kw w) = Raise e).
Proof.
  split; [|split; [|split]].
  - intros k Hk. unfold config, Os.lookup_env. by rewrite Hk.
  - by run_cases w.
  - intros c Hc. run_cases w; [congruence|done|done].
  - intros e He. run_cases w.
    + left. congruence.
    + right. exists cl. split; [done|congruence].
    + discriminate.
Qed.

(** A name set in both places keeps its process value; a name set only in
    the [.env] file gets the file's value. *)
Example process_environment_wins :
  os_environ Worlds.configured_by_file !! "to" = Some "+15558675310" ∧
  dotenv_values Worlds.configured_by_file !! "to" = Some (Some "+19995550000") ∧
  config Worlds.configured_by_file "to" = PyStr "+15558675310" ∧
  os_environ Worlds.configured_by_file !! "from_" = None ∧
  config Worlds.configured_by_file "from_" = PyStr "+15017122661".
Proof. repeat split; by vm_compute. Qed.

(** C10: the script calls [load_dotenv] first and with its defaults, so the
    value a lookup sees for a name is the one of the process environment
    when the name is set there, and otherwise the one the [.env] file binds
    it to, if any; every lookup of the run reads this merged environment. *)
Theorem dotenv_does_not_override (w : World) (k : string) :
  head (trace (run w).2) = Some EvLoadDotenv ∧
  effective_environ w !! k
  = match os_environ w !! k with
    | Some s => Some s
    | None => mjoin (dotenv_values w !! k)
    end ∧
  environ (run w).2 = effective_environ w ∧
  Forall (λ '(key, r), r = Os.lookup_env (effective_environ w) key)
    (lookups (trace (run w).2)).
Proof.
  split; [|split; [|split]].
  - by run_cases w.
  - apply set_as_environment_variables_lookup.
  - by run_cases w.
  - run_cases w; unfold prologue, submission; cbn; repeat constructor.
Qed.

(** ** Further properties of the script *)

Lemma string_length_app s1 s2 :
  String.length (s1 +:+ s2) = String.length s1 + String.length s2.
Proof. induction s1 as [|a s1 IH]; simpl; [done|]. by rewrite IH. Qed.

Lemma substring_all_but_rest s rest :
  String.substring 0 (String.length s) (s +:+ rest) = s.
Proof.
  induction s as [|a s IH]; simpl.
  - by destruct rest.
  - by rewrite IH.
Qed.

Lemma reported_sid_success_line call :
  reported_sid (success_line call) = py_str (sid call).
Proof.
  unfold reported_sid, success_line.
  rewrite !string_length_app.
  change (String.length "Call SID: ") with 10.
  change (String.length LF) with 1.
  replace (10 + (String.length (py_str (sid call)) + 1) - 11)
    with (String.length (py_str (sid call))) by lia.
  change (String.substring 10 ?n ("Call SID: " +:+ ?t))
    with (String.substring 0 n t).
  apply substring_all_but_rest.
Qed.

(** A raising call can only be the last event of [l ++ [x]] when no event
    of [l] raised. *)
Lemma split_at_final_raise (l : list event) (x : event)
    (before after : list event) (ev : event) :
  Forall (λ e, raised e = false) l →
  raised ev = true →
  l ++ [x] = before ++ ev :: after →
  before = l ∧ after = [] ∧ x = ev.
Proof.
  revert before. induction l as [|a l IH]; intros before Hquiet Hev Heq.
  - destruct before as [|b before]; cbn in Heq.
    + by injection Heq as -> <-.
    + injection Heq as _ Heq. by destruct before.
  - apply Forall_cons in Hquiet as [Ha Hquiet].
    destruct before as [|b before]; cbn in Heq.
    + injection Heq as -> _. congruence.
    + injection Heq as <- Heq.
      by destruct (IH before Hquiet Hev Heq) as (-> & -> & ->).
Qed.

Lemma no_raise_not_in (l : list event) (ev : event) :
  Forall (λ e, raised e = false) l → raised ev = true → ev ∉ l.
Proof.
  intros Hquiet Hev Hin.
  rewrite Forall_forall in Hquiet. specialize (Hquiet ev Hin). congruence.
Qed.

(** X1: when the constructor raises, that same exception ends the program
    with a status other than 0; the run stops right there: [to] and
    [from_] are never looked up, no request is sent and nothing is
    printed. *)
Theorem constructor_error_propagates (w : World) (u p : pyval) (e : PyExc) :
  EvClient u p (Raise e) ∈ trace (run w).2 →
  (run w).1 = Raise e ∧
  exit_status (run w).1 ≠ 0%Z ∧
  lookups (trace (run w).2)
  = [("account_sid", config w "account_sid");
     ("auth_token", config w "auth_token")] ∧
  requests (trace (run w).2) = [] ∧
  printed (trace (run w).2) = [] ∧
  stdout (run w).2 = "".
Proof.
  assert (∀ c, EvClient u p (Raise e) ∉ submission w c) as Hsub.
  { intros c. unfold submission. rewrite !not_elem_of_cons.
    repeat split; try done. apply not_elem_of_nil. }
  assert (EvClient u p (Raise e) ∈ prologue w →
          twilio_Client w (config w "account_sid") (config w "auth_token")
          = Raise e) as Hpro.
  { unfold prologue. rewrite !elem_of_cons, elem_of_nil.
    intros [?|[?|[?|[Heq|[]]]]]; try discriminate. by injection Heq as _ _ <-. }
  run_cases w; intros Hin.
  - apply Hpro in Hin. assert (ex = e) as -> by congruence. by repeat split.
  - apply elem_of_app in Hin as [Hin|Hin]; [|by apply Hsub in Hin].
    apply Hpro in Hin. congruence.
  - rewrite app_assoc in Hin. apply elem_of_app in Hin as [Hin|Hin].
    + apply elem_of_app in Hin as [Hin|Hin]; [|by apply Hsub in Hin].
      apply Hpro in Hin. congruence.
    + apply list_elem_of_singleton in Hin. discriminate.
Qed.

Lemma constructor_error_propagates_witness :
  EvClient PyNone PyNone (Raise Worlds.credentials_required)
    ∈ trace (run Worlds.unconfigured).2 ∧
  (run Worlds.unconfigured).1 = Raise Worlds.credentials_required ∧
  requests (trace (run Worlds.unconfigured).2) = [].
Proof.
  assert (EvClient PyNone PyNone (Raise Worlds.credentials_required)
            ∈ trace (run Worlds.unconfigured).2) as Hin.
  { vm_compute. do 3 apply list_elem_of_further. apply list_elem_of_here. }
  split; [exact Hin|].
  pose proof (constructor_error_propagates _ _ _ _ Hin)
    as (Hres & _ & _ & Hreq & _).
  split; [exact Hres | exact Hreq].
Defined.

(** X2: the exit status tells whether the line was printed.  The status is
    0 or 1; it is 0 exactly when standard output is not empty, exactly when
    one [print] ran, and exactly when both the constructor and the request
    returned. *)
Theorem exit_status_tells_output (w : World) :
  (exit_status (run w).1 = 0%Z ∨ exit_status (run w).1 = 1%Z) ∧
  (exit_status (run w).1 = 0%Z ↔ stdout (run w).2 ≠ "") ∧
  (exit_status (run w).1 = 0%Z ↔ length (printed (trace (run w).2)) = 1) ∧
  (exit_status (run w).1 = 0%Z ↔
   ∃ c call,
     twilio_Client w (config w "account_sid") (config w "auth_token") = Ok c ∧
     twilio_calls_create w c (request_kw w) = Ok call).
Proof.
  run_cases w; autorewrite with trace; cbn.
  - split; [by right|]. repeat split; try done.
    intros (c & call & Hc & _). congruence.
  - split; [by right|]. repeat split; try done.
    intros (c & call & Hc & Hr).
    assert (c = cl) as -> by congruence. congruence.
  - split; [by left|]. repeat split; try done.
    intros _. by exists cl, answer.
Qed.

(** X3: the identifier can be read back from standard output.  After a
    request that returned a record, dropping the ten characters of the
    label and the final line feed leaves [str(call.sid)], line feeds
    inside it included; the text starts with the label and ends with a
    line feed. *)
Theorem sid_is_recoverable (w : World) (c : Client) (kw : kwargs)
    (call : CallInstance) :
  EvCreate c kw (Ok call) ∈ trace (run w).2 →
  reported_sid (stdout (run w).2) = py_str (sid call) ∧
  String.substring 0 10 (stdout (run w).2) = "Call SID: " ∧
  String.length (stdout (run w).2) = 11 + String.length (py_str (sid call)) ∧
  String.substring (10 + String.length (py_str (sid call))) 1 (stdout (run w).2)
  = LF.
Proof.
  assert (∀ s n, String.substring (String.length s) n (s +:+ LF)
                 = String.substring 0 n LF) as Htail.
  { intros s n. induction s as [|a s IH]; simpl; [done|]. apply IH. }
  run_cases w; intros Hin.
  - by apply create_in_prologue in Hin.
  - apply elem_of_app in Hin as [Hin|Hin].
    + by apply create_in_prologue in Hin.
    + apply create_in_submission in Hin as (_ & _ & Hr). congruence.
  - rewrite app_assoc in Hin.
    apply elem_of_app in Hin as [Hin|Hin];
      [|apply list_elem_of_singleton in Hin; discriminate].
    apply elem_of_app in Hin as [Hin|Hin];
      [by apply create_in_prologue in Hin|].
    apply create_in_submission in Hin as (_ & _ & Hr).
    assert (answer = call) as -> by congruence.
    split; [apply reported_sid_success_line|].
    unfold success_line. split; [|split].
    + change 10 with (String.length "Call SID: ").
      apply substring_all_but_rest.
    + rewrite !string_length_app.
      change (String.length "Call SID: ") with 10.
      change (String.length LF) with 1. lia.
    + change (String.substring (10 + ?n) 1 ("Call SID: " +:+ ?t))
        with (String.substring n 1 t).
      by rewrite Htail.
Qed.

Lemma sid_is_recoverable_witness :
  reported_sid (stdout (run Worlds.configured).2)
  = "CA5ef8732a3c49700934481addd5ce1659".
Proof.
  refine (proj1 (sid_is_recoverable Worlds.configured
            (mkClient (PyStr "AC00000000000000000000000000000000") (PyStr "s3cret"))
            (request_kw Worlds.configured)
            (mkCall (PyStr "CA5ef8732a3c49700934481addd5ce1659")) _)).
  vm_compute. do 6 apply list_elem_of_further. apply list_elem_of_here.
Defined.

(** X4: no retry and no recovery.  A library call that raised is the last
    event of the run: after it the script looks nothing up, calls nothing
    and prints nothing, and at most one call of a run raises. *)
Theorem nothing_follows_a_raise (w : World) (before after : list event)
    (ev : event) :
  raised ev = true →
  trace (run w).2 = before ++ ev :: after →
  after = [] ∧
  Forall (λ e, raised e = false) before ∧
  printed (trace (run w).2) = [] ∧
  (∃ e, (run w).1 = Raise e).
Proof.
  intros Hev Heq.
  assert (Forall (λ e, raised e = false)
            [EvLoadDotenv;
             EvGetenv "account_sid" (config w "account_sid");
             EvGetenv "auth_token" (config w "auth_token")]) as Hhead
    by repeat constructor.
  run_cases w.
  - unfold prologue in Heq.
    change [EvLoadDotenv; ?a; ?b; ?x] with ([EvLoadDotenv; a; b] ++ [x]) in Heq.
    apply split_at_final_raise in Heq as (-> & -> & _); [|done|done].
    split; [done|]. split; [done|]. split; [done|eauto].
  - assert (Forall (λ e, raised e = false)
              (prologue w ++ [EvGetenv "to" (config w "to");
                              EvGetenv "from_" (config w "from_")])) as Hquiet.
    { apply Forall_app. split; [|by repeat constructor].
      unfold prologue. rewrite Hclient. by repeat constructor. }
    unfold submission in Heq.
    change [?a; ?b; ?x] with ([a; b] ++ [x]) in Heq.
    rewrite app_assoc in Heq.
    apply split_at_final_raise in Heq as (-> & -> & _); [|done|done].
    autorewrite with trace. split; [done|]. split; [done|]. split; [done|eauto].
  - exfalso.
    assert (Forall (λ e, raised e = false)
              (prologue w ++ submission w cl ++ [EvPrint (success_line answer)]))
      as Hquiet.
    { rewrite !Forall_app. repeat split.
      - unfold prologue. rewrite Hclient. by repeat constructor.
      - unfold submission. rewrite Hcreate. by repeat constructor.
      - by repeat constructor. }
    apply (no_raise_not_in _ ev Hquiet Hev).
    rewrite Heq. apply elem_of_app. right. apply list_elem_of_here.
Qed.

Lemma nothing_follows_a_raise_witness :
  printed (trace (run Worlds.refused).2) = [] ∧
  (∃ e, (run Worlds.refused).1 = Raise e).
Proof.
  refine (proj2 (proj2
    (nothing_follows_a_raise Worlds.refused
       [EvLoadDotenv;
        EvGetenv "account_sid" (PyStr "AC00000000000000000000000000000000");
        EvGetenv "auth_token" (PyStr "s3cret");
        EvClient (PyStr "AC00000000000000000000000000000000") (PyStr "s3cret")
          (Ok (mkClient (PyStr "AC00000000000000000000000000000000")
                 (PyStr "s3cret")));
        EvGetenv "to" (PyStr "+15558675310");
        EvGetenv "from_" (PyStr "+15017122661")]
       []
       (EvCreate
          (mkClient (PyStr "AC00000000000000000000000000000000") (PyStr "s3cret"))
          (request_kw Worlds.refused) (Raise Worlds.bad_request))
       _ _))).
  - reflexivity.
  - by vm_compute.
Defined.
